(** * ErrorLogger (src/logger.js): a shallow embedding and its properties

    The logger is one constructor, [ErrorLogger], whose instance holds a start
    time and a configuration object and exposes [init], [_errorListener],
    [_showError], [_getViewport], [_remoteLogging], [_parseError],
    [_getTimeOnPage] and [_parseVisitorTime].  The embedding keeps those names.

    Host facilities the code calls ([Date], [document], [window],
    [XMLHttpRequest], [console], [JSON]) are modelled by what the code observes
    of them: values read from the host are inputs, calls made to the host are
    events of a trace.  Numbers are integers ([Z]); the code only ever adds,
    subtracts, takes remainders and divides exactly.  JavaScript computes
    these in double precision, which agrees with the integers as long as
    every value stays within [MAX_SAFE_INTEGER] in magnitude, as clock
    readings and their differences do; properties that depend on exact
    arithmetic carry that bound. *)

From stdpp Require Import gmap strings list fin_maps pretty.
From Stdlib Require Import ZArith Lia Ascii.

Local Open Scope string_scope.
Local Open Scope list_scope.
Local Open Scope Z_scope.

(** ** JavaScript values, as far as the configuration holds them *)

#[warnings="-register-all"]
Inductive jsval : Type :=
  | VUndefined
  | VNull
  | VBool (b : bool)
  | VNum (n : Z)
  | VStr (s : string)
  | VFun (id : nat)                    (* a function object, by identity *)
  | VObj (o : gmap string jsval).      (* a plain object: own enumerable keys *)

(** ToBoolean. *)
Definition truthy (v : jsval) : bool :=
  match v with
  | VUndefined | VNull => false
  | VBool b => b
  | VNum n => negb (n =? 0)
  | VStr s => negb (String.eqb s "")
  | VFun _ | VObj _ => true
  end.

(** [typeof v === 'object'] *)
Definition typeof_object (v : jsval) : bool :=
  match v with
  | VNull | VObj _ => true
  | _ => false
  end.

(** ** Exceptions, events and the effect monad *)

Inductive exn : Type :=
  | JsError (msg : string)             (* new Error(msg) *)
  | JsTypeError (msg : string).

Definition result (A : Type) : Type := exn + A.

Inductive event : Type :=
  | ConsoleLog (text : string)
  | XhrOpen (method : string) (url : jsval) (async : bool)
  | XhrSetRequestHeader (name value : string)
  | XhrSend (body : string)
  | XhrOnReadyStateChange               (* the handler is installed *)
  | Invoke (f : nat)                    (* a configured callback is called *)
  | Uncaught (ex : exn).                (* an exception left a listener *)

(** Effectful code: the events emitted so far and how the call ended. *)
Definition M (A : Type) : Type := list event * result A.

Definition ret {A} (a : A) : M A := ([], inr a).
Definition throw {A} (ex : exn) : M A := ([], inl ex).
Definition emit (ev : event) : M unit := ([ev], inr tt).
Definition lift {A} (r : result A) : M A := ([], r).

Definition bind {A B} (m : M A) (k : A -> M B) : M B :=
  match m with
  | (tr, inl ex) => (tr, inl ex)
  | (tr, inr a) => let '(tr', r) := k a in (tr ++ tr', r)
  end.

Declare Scope js_scope.
Delimit Scope js_scope with js.
Notation "x <- m ;; k" := (bind m (fun x => k))
  (at level 100, m at next level, right associativity) : js_scope.
Notation "m ;; k" := (bind m (fun _ => k))
  (at level 100, right associativity) : js_scope.

Definition trace {A} (m : M A) : list event := fst m.
Definition outcome {A} (m : M A) : result A := snd m.

(** [v.k]: reading a property of [undefined] or [null] throws; primitives and
    functions have none of the keys the logger reads. *)
Definition get_prop (v : jsval) (k : string) : result jsval :=
  match v with
  | VUndefined => inl (JsTypeError "Cannot read properties of undefined")
  | VNull => inl (JsTypeError "Cannot read properties of null")
  | VObj o => inr (default VUndefined (o !! k))
  | _ => inr VUndefined
  end.

(** [f()] *)
Definition call (f : jsval) : M unit :=
  match f with
  | VFun id => emit (Invoke id)
  | _ => throw (JsTypeError "is not a function")
  end.

(** ** Strings *)

(** [s.split(sep)] for a one-character separator. *)
Fixpoint str_split (sep : ascii) (s : string) : list string :=
  match s with
  | EmptyString => [""]
  | String c s' =>
      if Ascii.eqb c sep then "" :: str_split sep s'
      else match str_split sep s' with
           | h :: t => String c h :: t
           | [] => [String c ""]
           end
  end.

Definition newline : ascii := Ascii.ascii_of_nat 10.

(** [s.slice(0, -1)] *)
Fixpoint slice_0_m1 (s : string) : string :=
  match s with
  | EmptyString => ""
  | String c EmptyString => ""
  | String c s' => String c (slice_0_m1 s')
  end.

(** [l.join(sep)] *)
Definition join (sep : string) (l : list string) : string := String.concat sep l.

(** [Number.MAX_SAFE_INTEGER], 2^53 - 1: up to it in magnitude every integer
    is a double and integer arithmetic on doubles is exact. *)
Definition MAX_SAFE_INTEGER : Z := 9007199254740991.

(** Number to string, for integers. *)
Definition Number_toString (n : Z) : string := pretty n.

(** ** JSON.stringify *)

#[warnings="-register-all"]
Inductive json : Type :=
  | JNum (n : Z)
  | JStr (s : string)
  | JArr (l : list json)
  | JObj (l : list (string * json)).

Definition hex_digit (n : nat) : ascii :=
  Ascii.ascii_of_nat (if (n <? 10)%nat then 48 + n else 87 + n)%nat.

(** QuoteJSONString on one code unit. *)
Definition json_escape (c : ascii) : string :=
  let n := Ascii.nat_of_ascii c in
  if (n =? 34)%nat then "\" +:+ String c ""
  else if (n =? 92)%nat then "\\"
  else if (n =? 8)%nat then "\b"
  else if (n =? 9)%nat then "\t"
  else if (n =? 10)%nat then "\n"
  else if (n =? 12)%nat then "\f"
  else if (n =? 13)%nat then "\r"
  else if (n <? 32)%nat then
    "\u00" +:+ String (hex_digit (n / 16)) (String (hex_digit (n mod 16)) "")
  else String c "".

Fixpoint json_escape_all (s : string) : string :=
  match s with
  | EmptyString => ""
  | String c s' => json_escape c +:+ json_escape_all s'
  end.

Definition dquote : string := String (Ascii.ascii_of_nat 34) "".

Definition json_quote (s : string) : string :=
  dquote +:+ json_escape_all s +:+ dquote.

Fixpoint JSON_stringify (j : json) : string :=
  match j with
  | JNum n => Number_toString n
  | JStr s => json_quote s
  | JArr l => "[" +:+ join "," (map JSON_stringify l) +:+ "]"
  | JObj l =>
      "{" +:+ join "," (map (fun kv => json_quote (fst kv) +:+ ":" +:+ JSON_stringify (snd kv)) l) +:+ "}"
  end.

(** ** The host: what the browser supplies to one run of the code *)

Record Host : Type := {
  Date_now : Z;                        (* Date.now() *)
  Date_toString : string;              (* new Date().toString() *)
  clientWidth : Z;                     (* document.documentElement.clientWidth *)
  clientHeight : Z;
  innerWidth : option Z;               (* window.innerWidth, None when undefined *)
  innerHeight : option Z
}.

(** The nested [error] of an error event, as [_parseError] can tell them apart:
    a falsy value, an object with a [stack] string, or any other truthy value
    (a thrown string, number or plain object), which has no [stack]. *)
Inductive nested_error : Type :=
  | NoError
  | ErrorWithStack (stack : string)
  | ThrownWithoutStack.

Module ErrorEvent.
Record t : Type := {
  type : string;
  message : string;
  filename : string;
  lineno : Z;
  colno : Z;
  error : nested_error
}.
End ErrorEvent.

(** The object literal [_parseError] returns, fields in the literal's order. *)
Module ErrorRecord.
Record t : Type := {
  type : string;
  message : string;
  path : string;
  line : Z;
  column : Z;
  stackTrace : string;
  viewport : string;
  timeSpend : Z;
  datetime : string
}.

(** [e.stackTrace = s] *)
Definition set_stackTrace (e : t) (s : string) : t :=
  {| type := type e; message := message e; path := path e; line := line e;
     column := column e; stackTrace := s; viewport := viewport e;
     timeSpend := timeSpend e; datetime := datetime e |}.

(** The record as [JSON.stringify] walks it. *)
Definition to_json (e : t) : json :=
  JObj [ ("type", JStr (type e)); ("message", JStr (message e));
         ("path", JStr (path e)); ("line", JNum (line e));
         ("column", JNum (column e)); ("stackTrace", JStr (stackTrace e));
         ("viewport", JStr (viewport e)); ("timeSpend", JNum (timeSpend e));
         ("datetime", JStr (datetime e)) ].
End ErrorRecord.

(** ** The logger instance *)

Record ErrorLogger : Type := {
  startTime : option Z;                (* null until init *)
  config : gmap string jsval;
  errorListener_ref : nat              (* identity of the closure this._errorListener *)
}.

(** The two default callbacks are distinct empty functions. *)
Definition default_successCallback : nat := 0%nat.
Definition default_errorCallback : nat := 1%nat.

Definition default_remoteLogging : gmap string jsval :=
  <["enable" := VBool false]>
  (<["url" := VNull]>
  (<["successCallback" := VFun default_successCallback]>
  (<["errorCallback" := VFun default_errorCallback]> ∅))).

Definition default_config : gmap string jsval :=
  <["detailedErrors" := VBool true]>
  (<["remoteLogging" := VObj default_remoteLogging]> ∅).

(** [new ErrorLogger()] *)
Definition ErrorLogger_new (listener : nat) : ErrorLogger :=
  {| startTime := None; config := default_config; errorListener_ref := listener |}.

(** [self.config.k] *)
Definition config_get (self : ErrorLogger) (k : string) : jsval :=
  default VUndefined (config self !! k).

(** [self.config.remoteLogging.k] *)
Definition remoteLogging_get (self : ErrorLogger) (k : string) : result jsval :=
  get_prop (config_get self "remoteLogging") k.

(** ** Object.assign(target, source), native or the polyfill of lines 239-261:
    every own key of the source is written to the target. *)
Definition Object_assign (target source : gmap string jsval) : gmap string jsval :=
  map_fold (fun key v tgt => <[key := v]> tgt) target source.

(** ** The window's listener list

    A listener is an event type and a callback, by identity.  The logger
    always registers and removes with the default capture flag, so the flag
    is left out. *)

Definition listener : Type := string * nat.

Fixpoint remove_first (x : listener) (l : list listener) : list listener :=
  match l with
  | [] => []
  | y :: l' => if decide (x = y) then l' else y :: remove_first x l'
  end.

Definition removeEventListener (ty : string) (cb : nat) (l : list listener) : list listener :=
  remove_first (ty, cb) l.

(** A listener already in the list is not added again. *)
Definition addEventListener (ty : string) (cb : nat) (l : list listener) : list listener :=
  if decide ((ty, cb) ∈ l) then l else l ++ [(ty, cb)].

(** ** init (lines 45-59) *)
Definition init (self : ErrorLogger) (options : jsval) (now : Z)
    (listeners : list listener) : ErrorLogger * list listener :=
  let cfg :=
    if truthy options && typeof_object options then
      match options with
      | VObj o => Object_assign (config self) o
      | _ => config self
      end
    else config self in
  let self' := {| startTime := Some now; config := cfg;
                  errorListener_ref := errorListener_ref self |} in
  let listeners := removeEventListener "error" (errorListener_ref self') listeners in
  let listeners := addEventListener "error" (errorListener_ref self') listeners in
  (self', listeners).

(** ** _getViewport (lines 104-109) *)

(** [x || 0] on a number that may be undefined. *)
Definition or_zero (x : option Z) : Z :=
  match x with
  | Some n => if n =? 0 then 0 else n
  | None => 0
  end.

Definition _getViewport (h : Host) : string :=
  let w := Z.max (clientWidth h) (or_zero (innerWidth h)) in
  let ht := Z.max (clientHeight h) (or_zero (innerHeight h)) in
  Number_toString w +:+ "x" +:+ Number_toString ht.

(** ** _getTimeOnPage (lines 179-181): [Date.now() - self.startTime], where
    subtraction converts [null] to 0. *)
Definition ToNumber_startTime (t : option Z) : Z :=
  match t with
  | Some n => n
  | None => 0
  end.

Definition _getTimeOnPage (self : ErrorLogger) (h : Host) : M Z :=
  ret (Date_now h - ToNumber_startTime (startTime self)).

(** ** _parseError (lines 150-171) *)
Definition _parseError (self : ErrorLogger) (h : Host) (e : ErrorEvent.t) : M ErrorRecord.t :=
  (let datetime := Date_toString h in
   let viewport := _getViewport h in
   visitorTimeOnPage <- _getTimeOnPage self h ;;
   error <- match ErrorEvent.error e with
            | NoError => ret ""
            | ErrorWithStack stack => ret stack
            | ThrownWithoutStack =>
                throw (JsTypeError "Cannot read properties of undefined")
            end ;;
   ret {| ErrorRecord.type := ErrorEvent.type e;
          ErrorRecord.message := ErrorEvent.message e;
          ErrorRecord.path := ErrorEvent.filename e;
          ErrorRecord.line := ErrorEvent.lineno e;
          ErrorRecord.column := ErrorEvent.colno e;
          ErrorRecord.stackTrace := error;
          ErrorRecord.viewport := viewport;
          ErrorRecord.timeSpend := visitorTimeOnPage;
          ErrorRecord.datetime := datetime |})%js.

(** ** _parseVisitorTime (lines 190-236) *)

Record unit_of_time : Type := { label : string; mod_ : Z }.

Definition units : list unit_of_time :=
  [ {| label := "ms"; mod_ := 1000 |};
    {| label := "seconds"; mod_ := 60 |};
    {| label := "minutes"; mod_ := 60 |};
    {| label := "hours"; mod_ := 24 |};
    {| label := "days"; mod_ := 31 |} ].

(** One round of the [forEach] at line 217:
    [ms = (ms - (duration[u.label] = (ms % u.mod))) / u.mod].
    [%] is the remainder that takes the sign of the dividend.  The integer
    step is the code's step for [ms] within [MAX_SAFE_INTEGER] in magnitude;
    beyond it the code's doubles round and the two part. *)
Definition cascade_step (acc : gmap string Z * Z) (u : unit_of_time) : gmap string Z * Z :=
  let '(duration, ms) := acc in
  let r := Z.rem ms (mod_ u) in
  (<[label u := r]> duration, (ms - r) / mod_ u).

Definition cascade (us : list unit_of_time) (ms : Z) : gmap string Z * Z :=
  fold_left cascade_step us (∅, ms).

(** The returned object: its numeric fields, and the [units] array its
    [toString] closes over (and reverses in place on every call). *)
Record Duration : Type := {
  fields : gmap string Z;
  units_of : list unit_of_time
}.

Definition _parseVisitorTime (ms : Z) : Duration :=
  {| fields := fst (cascade units ms); units_of := units |}.

(** [duration[u.label]] as a filter predicate. *)
Definition nonZero (duration : gmap string Z) (u : unit_of_time) : bool :=
  match duration !! label u with
  | Some n => negb (n =? 0)
  | None => false
  end.

(** The [map] callback at line 230. *)
Definition render_unit (duration : gmap string Z) (u : unit_of_time) : string :=
  match duration !! label u with
  | Some n =>
      Number_toString n +:+ " " +:+ (if n =? 1 then slice_0_m1 (label u) else label u)
  | None => "undefined " +:+ label u
  end.

(** [duration.toString()]: the string, and the object with [units] reversed. *)
Definition Duration_toString (d : Duration) : string * Duration :=
  let us := rev (units_of d) in
  (join ", " (map (render_unit (fields d)) (List.filter (nonZero (fields d)) us)),
   {| fields := fields d; units_of := us |}).

(** ** _showError (lines 83-96) *)
Definition _showError (e : ErrorRecord.t) : M unit :=
  emit (ConsoleLog (join (String newline "")
    [ "Type: " +:+ ErrorRecord.type e;
      "Error: " +:+ ErrorRecord.message e;
      "StackTrace: " +:+ ErrorRecord.stackTrace e;
      "Path: " +:+ ErrorRecord.path e;
      "Line: " +:+ Number_toString (ErrorRecord.line e);
      "Column: " +:+ Number_toString (ErrorRecord.column e);
      "Debug: " +:+ ErrorRecord.path e +:+ ":" +:+ Number_toString (ErrorRecord.line e);
      "Viewport: " +:+ ErrorRecord.viewport e;
      "Visitor time on page: " +:+
        fst (Duration_toString (_parseVisitorTime (ErrorRecord.timeSpend e)));
      "Date: " +:+ ErrorRecord.datetime e ])).

(** ** _remoteLogging (lines 117-141)

    The record [e] is an object the function writes to, so the function
    returns the record as it is when the call ends, next to its effects.
    The URL is read at line 118 and again at line 125; nothing runs in
    between that could change the configuration, so one read stands for both. *)

Definition missing_url : exn := JsError "Provide remote URL to log errors.".

Definition _remoteLogging (self : ErrorLogger) (e : ErrorRecord.t) : ErrorRecord.t * M unit :=
  match remoteLogging_get self "url" with
  | inl ex => (e, throw ex)
  | inr url =>
      if negb (truthy url) then (e, throw missing_url)
      else
        let e := ErrorRecord.set_stackTrace e
                   (JSON_stringify (JArr (map JStr (str_split newline (ErrorRecord.stackTrace e))))) in
        (e,
         (emit (XhrOpen "POST" url true) ;;
          emit (XhrSetRequestHeader "Content-type" "application/json;charset=UTF-8") ;;
          emit (XhrSend (JSON_stringify (ErrorRecord.to_json e))) ;;
          emit XhrOnReadyStateChange)%js)
  end.

(** The handler installed at line 132, run when the request's ready state
    changes; it reads the configuration current at that time. *)
Definition onreadystatechange (self : ErrorLogger) (readyState status : Z) : M unit :=
  if readyState =? 4 then
    (success <- (if status =? 200
                 then successCallback <- lift (remoteLogging_get self "successCallback") ;;
                      ret (truthy successCallback)
                 else ret false) ;;
     if success : bool then
       successCallback <- lift (remoteLogging_get self "successCallback") ;;
       call successCallback
     else
       errorCallback <- lift (remoteLogging_get self "errorCallback") ;;
       if truthy errorCallback then
         errorCallback <- lift (remoteLogging_get self "errorCallback") ;;
         call errorCallback
       else ret tt)%js
  else ret tt.

(** A request runs through ready states and ends in state 4 (DONE) once; an
    exception in the handler is reported by the host and the next state change
    is still delivered. *)
Definition report {A} (m : M A) : list event :=
  match m with
  | (tr, inl ex) => tr ++ [Uncaught ex]
  | (tr, inr _) => tr
  end.

Definition complete_request (self : ErrorLogger) (earlier : list Z) (status : Z) : list event :=
  List.concat (map (fun rs => report (onreadystatechange self rs status)) (earlier ++ [4])).

(** ** _errorListener (lines 66-76) *)
Definition _errorListener (self : ErrorLogger) (h : Host) (ev : ErrorEvent.t) : M unit :=
  (e <- _parseError self h ev ;;
   (if truthy (config_get self "detailedErrors") then _showError e else ret tt) ;;
   enable <- lift (remoteLogging_get self "enable") ;;
   if truthy enable then snd (_remoteLogging self e) else ret tt)%js.


(** Successive [init] calls on one instance, each with its options and the
    clock reading at the call. *)
Definition init_many (self : ErrorLogger) (calls : list (jsval * Z))
    (listeners : list listener) : ErrorLogger * list listener :=
  fold_left (fun st c => init (fst st) (fst c) (snd c) (snd st)) calls (self, listeners).

(** How many times the instance's handler sits in a listener list. *)
Definition registered (self : ErrorLogger) (listeners : list listener) : nat :=
  length (List.filter
            (fun l : listener => bool_decide (l = ("error", errorListener_ref self)))
            listeners).

(** ** Observations on traces *)

Definition is_network (ev : event) : bool :=
  match ev with
  | XhrOpen _ _ _ | XhrSetRequestHeader _ _ | XhrSend _ => true
  | _ => false
  end.

Definition is_console (ev : event) : bool :=
  match ev with ConsoleLog _ => true | _ => false end.


Definition is_invoke (f : nat) (ev : event) : bool :=
  match ev with Invoke g => Nat.eqb f g | _ => false end.

Definition count (p : event -> bool) (tr : list event) : nat :=
  length (List.filter p tr).

(** The body handed to [xhr.send], if the trace has one. *)
Fixpoint sent_body (tr : list event) : option string :=
  match tr with
  | [] => None
  | XhrSend body :: _ => Some body
  | _ :: tr' => sent_body tr'
  end.

(** A member of a JSON object, by key. *)
Definition json_field (k : string) (j : json) : option json :=
  match j with
  | JObj l => snd <$> List.find (fun kv => String.eqb (fst kv) k) l
  | _ => None
  end.

(** Does the character occur in the string? *)
Fixpoint has_char (c : ascii) (s : string) : bool :=
  match s with
  | EmptyString => false
  | String d s' => Ascii.eqb d c || has_char c s'
  end.

(** How often the character occurs in the string. *)
Fixpoint count_char (c : ascii) (s : string) : nat :=
  match s with
  | EmptyString => 0%nat
  | String d s' => ((if Ascii.eqb d c then 1 else 0) + count_char c s')%nat
  end.

(** ** The specification's reading of some behaviours, for comparison *)

(** Specification, section 4.4: every component lies below its modulus except
    days, which is the whole remaining quotient. *)
Definition spec_days (ms : Z) : Z := ms / 86400000.

(** Specification, section 6: the body carries [stackTrace] as a JSON array of
    the lines of the raw stack. *)
Definition spec_payload (e : ErrorRecord.t) : string :=
  JSON_stringify
    (JObj [ ("type", JStr (ErrorRecord.type e)); ("message", JStr (ErrorRecord.message e));
            ("path", JStr (ErrorRecord.path e)); ("line", JNum (ErrorRecord.line e));
            ("column", JNum (ErrorRecord.column e));
            ("stackTrace", JArr (map JStr (str_split newline (ErrorRecord.stackTrace e))));
            ("viewport", JStr (ErrorRecord.viewport e));
            ("timeSpend", JNum (ErrorRecord.timeSpend e));
            ("datetime", JStr (ErrorRecord.datetime e)) ]).

(** Specification, section 4.6: the success callback runs exactly once when,
    and only when, the status is in the 200 class and the callback is set. *)
Definition spec_success_on_2xx (self : ErrorLogger) (earlier : list Z) (status : Z) : Prop :=
  forall s, remoteLogging_get self "successCallback" = inr (VFun s) ->
    (count (is_invoke s) (complete_request self earlier status) = 1%nat <->
     200 <= status < 300).

(** Specification, section 4.1: without a start time the elapsed-time call
    raises instead of returning a number. *)
Definition spec_elapsed_fails_fast (self : ErrorLogger) (h : Host) : Prop :=
  startTime self = None -> exists ex, outcome (_getTimeOnPage self h) = inl ex.


(** ** Sample inputs *)

Definition sample_host : Host :=
  {| Date_now := 1700000005000; Date_toString := "Tue Nov 14 2023 22:13:25 GMT+0000";
     clientWidth := 1024; clientHeight := 768;
     innerWidth := Some 1040; innerHeight := None |}.

Definition three_lines : string :=
  "line1" +:+ String newline ("line2" +:+ String newline "line3").

Definition sample_event (err : nested_error) : ErrorEvent.t :=
  {| ErrorEvent.type := "error";
     ErrorEvent.message := "Uncaught ReferenceError: x is not defined";
     ErrorEvent.filename := "http://localhost/app.js";
     ErrorEvent.lineno := 3; ErrorEvent.colno := 7;
     ErrorEvent.error := err |}.

Definition sample_record (stack : string) : ErrorRecord.t :=
  {| ErrorRecord.type := "error";
     ErrorRecord.message := "Uncaught ReferenceError: x is not defined";
     ErrorRecord.path := "http://localhost/app.js";
     ErrorRecord.line := 3; ErrorRecord.column := 7;
     ErrorRecord.stackTrace := stack;
     ErrorRecord.viewport := "1040x768";
     ErrorRecord.timeSpend := 5000;
     ErrorRecord.datetime := "Tue Nov 14 2023 22:13:25 GMT+0000" |}.

(** The JSON text of the array of the strings line1, line2 and line3. *)
Definition three_lines_array_text : string :=
  "[" +:+ dquote +:+ "line1" +:+ dquote +:+ "," +:+ dquote +:+ "line2" +:+ dquote
      +:+ "," +:+ dquote +:+ "line3" +:+ dquote +:+ "]".

(** The text of the array holding one empty string. *)
Definition empty_line_array_text : string := "[" +:+ dquote +:+ dquote +:+ "]".

(** [{remoteLogging: {enable: true, url: u}}] *)
Definition remote_options (u : jsval) : jsval :=
  VObj (<["remoteLogging" := VObj (<["enable" := VBool true]> (<["url" := u]> ∅))]> ∅).


(** A logger initialised once with remote logging on and [url] as given. *)
Definition remote_logger (u : jsval) : ErrorLogger :=
  fst (init (ErrorLogger_new 0) (remote_options u) 1700000000000 []).

(** * Properties *)

(** Unfolds the effect monad's plumbing and decides the branches on truthiness,
    leaving the texts of the reports alone. *)
Ltac run_effects :=
  repeat first
    [ progress cbn [bind ret throw emit lift report call app fst snd negb]
    | match goal with
      | H : truthy ?v = _ |- context [truthy ?v] => rewrite H
      end
    | match goal with
      | |- context [truthy ?v] => destruct (truthy v) eqn:?
      end ].

(** ** Duration formatter *)

Lemma cascade_step_nonneg (d : gmap string Z) (ms : Z) (u : unit_of_time) :
  0 <= ms -> 0 < mod_ u ->
  cascade_step (d, ms) u = (<[label u := ms mod mod_ u]> d, ms / mod_ u).
Proof.
  intros Hms Hm. unfold cascade_step.
  rewrite Z.rem_mod_nonneg by lia.
  f_equal.
  symmetry. apply Z.div_unique with (r := 0); [lia|].
  pose proof (Z.div_mod ms (mod_ u)). lia.
Qed.

Lemma cascade_units (ms : Z) :
  0 <= ms ->
  cascade units ms =
    (<["days" := (ms / 86400000) mod 31]>
     (<["hours" := (ms / 3600000) mod 24]>
     (<["minutes" := (ms / 60000) mod 60]>
     (<["seconds" := (ms / 1000) mod 60]>
     (<["ms" := ms mod 1000]> ∅)))),
     ms / 2678400000).
Proof.
  intros Hms. unfold cascade, units. cbn [fold_left].
  assert (H1 : 0 <= ms / 1000) by (apply Z.div_pos; lia).
  assert (H2 : 0 <= ms / 1000 / 60) by (apply Z.div_pos; lia).
  assert (H3 : 0 <= ms / 1000 / 60 / 60) by (apply Z.div_pos; lia).
  assert (H4 : 0 <= ms / 1000 / 60 / 60 / 24) by (apply Z.div_pos; lia).
  rewrite !cascade_step_nonneg; cbn [label mod_]; try lia.
  rewrite !Z.div_div by lia.
  reflexivity.
Qed.

(** C3, as the specification words it, fails: 31 days of milliseconds have a
    days component of 0, not the full quotient 31. *)
Lemma days_component_not_full_quotient :
  fields (_parseVisitorTime 2678400000) !! "days" <> Some (spec_days 2678400000).
Proof. vm_compute. discriminate. Qed.

(** C3 (amended): for every nonnegative millisecond input up to
    Number.MAX_SAFE_INTEGER (2^53 - 1, the range in which the code's
    arithmetic is exact) the cascade stores ms in [0,1000), seconds in
    [0,60), minutes in [0,60), hours in [0,24) and days in [0,31): the days
    component is the quotient by 86400000 reduced modulo 31, and what remains
    after the days round is not stored. *)
Theorem parseVisitorTime_components (ms : Z) :
  0 <= ms <= MAX_SAFE_INTEGER ->
  let d := fields (_parseVisitorTime ms) in
  d !! "ms" = Some (ms mod 1000) /\
  d !! "seconds" = Some ((ms / 1000) mod 60) /\
  d !! "minutes" = Some ((ms / 60000) mod 60) /\
  d !! "hours" = Some ((ms / 3600000) mod 24) /\
  d !! "days" = Some ((spec_days ms) mod 31) /\
  0 <= ms mod 1000 < 1000 /\
  0 <= (ms / 1000) mod 60 < 60 /\
  0 <= (ms / 60000) mod 60 < 60 /\
  0 <= (ms / 3600000) mod 24 < 24 /\
  0 <= (spec_days ms) mod 31 < 31 /\
  snd (cascade units ms) = spec_days ms / 31.
Proof.
  intros [Hms _] d. subst d. unfold _parseVisitorTime, spec_days. cbn [fields].
  rewrite cascade_units by assumption. cbn [fst snd].
  repeat split; try (by simplify_map_eq); try (apply Z.mod_pos_bound; lia).
  rewrite Z.div_div by lia. reflexivity.
Qed.

Lemma parseVisitorTime_components_witness :
  0 <= 90061001 <= MAX_SAFE_INTEGER /\
  fields (_parseVisitorTime 90061001) !! "days" = Some (spec_days 90061001 mod 31).
Proof.
  assert (H : 0 <= 90061001 <= MAX_SAFE_INTEGER) by (unfold MAX_SAFE_INTEGER; lia).
  split; [exact H |].
  apply (parseVisitorTime_components 90061001 H).
Defined.

(** C4, as the specification words it, fails: the milliseconds left over
    after the carry are rendered too. *)
Lemma render_1500_not_1_second :
  fst (Duration_toString (_parseVisitorTime 1500)) <> "1 second".
Proof. vm_compute. discriminate. Qed.

(** C4 (amended): for the input 1500 milliseconds the duration formatter
    renders exactly "1 second, 500 ms", and that is the text the console
    report carries. *)
Theorem duration_1500_rendering :
  fst (Duration_toString (_parseVisitorTime 1500)) = "1 second, 500 ms".
Proof. vm_compute. reflexivity. Qed.

(** ** Session clock *)

(** C5, as the specification words it, fails: a logger that was never
    initialised returns a number. *)
Lemma elapsed_without_init_returns :
  ~ spec_elapsed_fails_fast (ErrorLogger_new 0) sample_host.
Proof.
  intros H. destruct (H eq_refl) as [ex Hex]. discriminate Hex.
Qed.

(** C5 (amended): when the start time was never set, computing the elapsed
    time raises nothing and emits nothing; it returns the current clock
    reading itself (the start time counts as 0), and the enriched record
    carries that value as its timeSpend. *)
Theorem getTimeOnPage_without_init (self : ErrorLogger) (h : Host) :
  startTime self = None ->
  _getTimeOnPage self h = ret (Date_now h) /\
  forall ev e, outcome (_parseError self h ev) = inr e ->
               ErrorRecord.timeSpend e = Date_now h.
Proof.
  intros Hst. unfold _getTimeOnPage. rewrite Hst. cbn [ToNumber_startTime].
  rewrite Z.sub_0_r. split; [reflexivity |].
  intros ev e. unfold _parseError, _getTimeOnPage. rewrite Hst.
  cbn [ToNumber_startTime]. rewrite Z.sub_0_r.
  destruct (ErrorEvent.error ev); cbn; intros He; try discriminate;
    injection He as <-; reflexivity.
Qed.

Lemma getTimeOnPage_without_init_witness :
  startTime (ErrorLogger_new 0) = None /\
  _getTimeOnPage (ErrorLogger_new 0) sample_host = ret 1700000005000.
Proof.
  split; [reflexivity |].
  apply (getTimeOnPage_without_init (ErrorLogger_new 0) sample_host). reflexivity.
Defined.

(** ** Remote sink: the URL precondition *)

Lemma bind_ret_l {A B} (a : A) (k : A -> M B) : bind (ret a) k = k a.
Proof. unfold bind, ret. destruct (k a). reflexivity. Qed.

Lemma null_url_throws (self : ErrorLogger) (e : ErrorRecord.t) :
  remoteLogging_get self "url" = inr VNull ->
  _remoteLogging self e = (e, throw missing_url).
Proof. intros Hurl. unfold _remoteLogging. rewrite Hurl. reflexivity. Qed.

Lemma parseError_trace (self : ErrorLogger) (h : Host) (ev : ErrorEvent.t) :
  trace (_parseError self h ev) = [].
Proof.
  unfold _parseError, _getTimeOnPage. rewrite bind_ret_l.
  destruct (ErrorEvent.error ev); reflexivity.
Qed.

(** The listener's whole behaviour once the event has been parsed. *)
Lemma errorListener_parsed (self : ErrorLogger) (h : Host) (ev : ErrorEvent.t)
    (e : ErrorRecord.t) :
  outcome (_parseError self h ev) = inr e ->
  _errorListener self h ev =
    ((if truthy (config_get self "detailedErrors") then _showError e else ret tt) ;;
     enable <- lift (remoteLogging_get self "enable") ;;
     if truthy enable then snd (_remoteLogging self e) else ret tt)%js.
Proof.
  intros He. unfold _errorListener.
  pose proof (parseError_trace self h ev) as Htr.
  destruct (_parseError self h ev) as [tr [ex | e']]; cbn in He, Htr; [discriminate |].
  injection He as ->. subst tr.
  unfold bind at 1.
  match goal with |- (let '(_, _) := ?m in _) = _ => destruct m as [tr' r'] end.
  reflexivity.
Qed.

(** C2: when the remote sink is dispatched with a null URL, the call raises
    the configuration error at once, with no event at all before it (so no
    request is opened or sent), and the error leaves the listener that
    dispatched it: with remote logging enabled the listener ends in that same
    error and its trace holds no network event. *)
Theorem remoteLogging_null_url_raises (self : ErrorLogger) :
  remoteLogging_get self "url" = inr VNull ->
  (forall e, snd (_remoteLogging self e) = ([], inl missing_url)) /\
  (forall h ev e enable,
     outcome (_parseError self h ev) = inr e ->
     remoteLogging_get self "enable" = inr enable -> truthy enable = true ->
     outcome (_errorListener self h ev) = inl missing_url /\
     count is_network (trace (_errorListener self h ev)) = 0%nat).
Proof.
  intros Hurl. split.
  - intros e. rewrite null_url_throws by assumption. reflexivity.
  - intros h ev e enable He Hen Hty.
    rewrite (errorListener_parsed self h ev e He).
    rewrite Hen. unfold lift. rewrite null_url_throws by assumption.
    cbn [snd]. destruct (truthy (config_get self "detailedErrors"));
      cbn; rewrite Hty; cbn; split; reflexivity.
Qed.

Lemma remoteLogging_null_url_raises_witness :
  outcome (_errorListener (remote_logger VNull) sample_host (sample_event NoError))
    = inl missing_url.
Proof.
  pose proof (remoteLogging_null_url_raises (remote_logger VNull)) as H.
  destruct H as [_ H]; [vm_compute; reflexivity |].
  apply (H sample_host (sample_event NoError)
           (sample_record "") (VBool true)); vm_compute; reflexivity.
Defined.

(** C9: if the remote dispatch raises the missing-URL error, the record it
    was given is unchanged (its stackTrace is still the raw string) and the
    call has emitted no event; the write to stackTrace comes after the check. *)
Theorem remoteLogging_raise_leaves_record (self : ErrorLogger) (e : ErrorRecord.t) :
  outcome (snd (_remoteLogging self e)) = inl missing_url ->
  fst (_remoteLogging self e) = e /\
  ErrorRecord.stackTrace (fst (_remoteLogging self e)) = ErrorRecord.stackTrace e /\
  trace (snd (_remoteLogging self e)) = [].
Proof.
  unfold _remoteLogging.
  destruct (remoteLogging_get self "url") as [ex | url]; cbn.
  - intros _. repeat split.
  - destruct (truthy url); cbn.
    + discriminate.
    + intros _. repeat split.
Qed.

Lemma remoteLogging_raise_leaves_record_witness :
  ErrorRecord.stackTrace (fst (_remoteLogging (remote_logger VNull) (sample_record three_lines)))
    = three_lines.
Proof.
  apply (remoteLogging_raise_leaves_record (remote_logger VNull) (sample_record three_lines)).
  vm_compute. reflexivity.
Defined.

(** ** Remote sink: completion callbacks *)

Lemma onreadystatechange_not_done (self : ErrorLogger) (rs status : Z) :
  rs <> 4 -> onreadystatechange self rs status = ret tt.
Proof.
  intros Hrs. unfold onreadystatechange.
  destruct (Z.eqb_spec rs 4); [contradiction | reflexivity].
Qed.

(** Only the final state change has any effect. *)
Lemma complete_request_done (self : ErrorLogger) (earlier : list Z) (status : Z) :
  Forall (fun rs => rs <> 4) earlier ->
  complete_request self earlier status = report (onreadystatechange self 4 status).
Proof.
  unfold complete_request. induction 1 as [| rs earlier Hrs _ IH]; cbn.
  - apply app_nil_r.
  - rewrite onreadystatechange_not_done by assumption. cbn. exact IH.
Qed.

(** What the handler does in the final state, as one decision. *)
Lemma onreadystatechange_done (self : ErrorLogger) (status : Z) (sc ec : jsval) :
  remoteLogging_get self "successCallback" = inr sc ->
  remoteLogging_get self "errorCallback" = inr ec ->
  onreadystatechange self 4 status =
    if (status =? 200) && truthy sc then call sc
    else if truthy ec then call ec else ret tt.
Proof.
  intros Hsc Hec. unfold onreadystatechange. cbn [Z.eqb Pos.eqb].
  rewrite Hsc, Hec. change (@lift jsval (inr ?v)) with (ret v).
  destruct (status =? 200); rewrite !bind_ret_l; cbn [andb];
    destruct (truthy sc); rewrite ?bind_ret_l;
    destruct (truthy ec); rewrite ?bind_ret_l; reflexivity.
Qed.

(** C1, as the specification words it, fails: status 204 is in the 200 class
    and the default success callback is set, yet it is not the one called. *)
Lemma status_204_not_success :
  ~ spec_success_on_2xx (ErrorLogger_new 0) [2; 3] 204.
Proof.
  intros H. specialize (H default_successCallback eq_refl).
  destruct H as [_ H]. assert (H204 : 200 <= 204 < 300) by lia.
  specialize (H H204). vm_compute in H. discriminate H.
Qed.

(** C1 (amended): a completed request calls the success callback, once and
    alone, exactly when the status is 200 and a success callback is set; in
    every other case (another status, or no success callback) it calls the
    error callback once and alone if one is set, and calls nothing if none
    is. *)
Theorem complete_request_callbacks (self : ErrorLogger) (earlier : list Z)
    (status : Z) (sc ec : jsval) :
  Forall (fun rs => rs <> 4) earlier ->
  remoteLogging_get self "successCallback" = inr sc ->
  remoteLogging_get self "errorCallback" = inr ec ->
  let tr := complete_request self earlier status in
  (forall s, sc = VFun s -> status = 200 -> tr = [Invoke s]) /\
  (forall e, ec = VFun e -> status <> 200 \/ truthy sc = false -> tr = [Invoke e]) /\
  (truthy ec = false -> status <> 200 \/ truthy sc = false -> tr = []) /\
  (forall s, sc = VFun s -> ec <> VFun s ->
     (count (is_invoke s) tr = 1%nat <-> status = 200)).
Proof.
  intros Hearlier Hsc Hec tr. subst tr.
  rewrite complete_request_done by assumption.
  rewrite (onreadystatechange_done self status sc ec Hsc Hec).
  assert (Hother : status <> 200 \/ truthy sc = false ->
                   ((status =? 200) && truthy sc)%bool = false).
  { intros [Hs | Hs]; [apply Z.eqb_neq in Hs; rewrite Hs | rewrite Hs, andb_false_r];
      reflexivity. }
  split; [| split; [| split]].
  - intros s -> ->. reflexivity.
  - intros e -> Hcase. rewrite (Hother Hcase). reflexivity.
  - intros Hfalsy Hcase. rewrite (Hother Hcase), Hfalsy. reflexivity.
  - intros s -> Hec'. unfold count.
    destruct (Z.eqb_spec status 200) as [-> | Hne]; cbn.
    + rewrite Nat.eqb_refl. split; reflexivity.
    + split; [| contradiction].
      destruct ec as [| | b | n | str | e | o]; cbn; try discriminate.
      * destruct b; cbn; discriminate.
      * destruct (n =? 0); cbn; discriminate.
      * destruct (String.eqb str ""); cbn; discriminate.
      * destruct (Nat.eqb_spec s e) as [-> | Hse]; [congruence | cbn; discriminate].
Qed.

Lemma complete_request_callbacks_witness :
  complete_request (ErrorLogger_new 0) [2; 3] 200 = [Invoke default_successCallback] /\
  complete_request (ErrorLogger_new 0) [2; 3] 500 = [Invoke default_errorCallback].
Proof.
  assert (Hearlier : Forall (fun rs => rs <> 4) [2; 3]) by (repeat constructor; lia).
  split.
  - destruct (complete_request_callbacks (ErrorLogger_new 0) [2; 3] 200
                (VFun default_successCallback) (VFun default_errorCallback)
                Hearlier eq_refl eq_refl) as [H _].
    apply H; reflexivity.
  - destruct (complete_request_callbacks (ErrorLogger_new 0) [2; 3] 500
                (VFun default_successCallback) (VFun default_errorCallback)
                Hearlier eq_refl eq_refl) as [_ [H _]].
    apply H; [reflexivity | left; lia].
Defined.

(** ** Configuration merge *)

Lemma Object_assign_lookup (target source : gmap string jsval) (k : string) :
  Object_assign target source !! k =
    match source !! k with
    | Some v => Some v
    | None => target !! k
    end.
Proof.
  unfold Object_assign.
  apply (map_fold_weak_ind
           (fun (r : gmap string jsval) (m : gmap string jsval) =>
              r !! k = match m !! k with Some v => Some v | None => target !! k end)).
  - rewrite lookup_empty. reflexivity.
  - intros i x m r Hfresh IH.
    destruct (decide (i = k)) as [-> | Hne].
    + rewrite !lookup_insert_eq. reflexivity.
    + rewrite !lookup_insert_ne by assumption. exact IH.
Qed.

Lemma Object_assign_union (target source : gmap string jsval) :
  Object_assign target source = source ∪ target.
Proof.
  apply map_eq. intros k. rewrite Object_assign_lookup, lookup_union.
  destruct (source !! k), (target !! k); reflexivity.
Qed.

Lemma init_config (self : ErrorLogger) (o : gmap string jsval) (now : Z)
    (ls : list listener) :
  config (fst (init self (VObj o) now ls)) = Object_assign (config self) o.
Proof. reflexivity. Qed.

(** C6: init with an options object overrides the configuration key by key at
    the top level only.  A key present in the options takes the options'
    value as it is; a key absent from the options keeps its prior value.  So
    an options object whose remoteLogging is a partial object leaves exactly
    that object as the remote-logging configuration: each of its keys reads
    as the override states it, and every key the override does not state (a
    url or callback configured earlier) reads as undefined. *)
Theorem init_shallow_merge (self : ErrorLogger) (o : gmap string jsval) (now : Z)
    (ls : list listener) :
  let self' := fst (init self (VObj o) now ls) in
  (forall k v, o !! k = Some v -> config self' !! k = Some v) /\
  (forall k, o !! k = None -> config self' !! k = config self !! k) /\
  (forall r, o !! "remoteLogging" = Some (VObj r) ->
     config self' !! "remoteLogging" = Some (VObj r) /\
     (forall k v, r !! k = Some v -> remoteLogging_get self' k = inr v) /\
     (forall k, r !! k = None -> remoteLogging_get self' k = inr VUndefined)).
Proof.
  intros self'. subst self'. rewrite init_config.
  split; [| split].
  - intros k v Hk. rewrite Object_assign_lookup, Hk. reflexivity.
  - intros k Hk. rewrite Object_assign_lookup, Hk. reflexivity.
  - intros r Hr.
    assert (Hcfg : Object_assign (config self) o !! "remoteLogging" = Some (VObj r))
      by (rewrite Object_assign_lookup, Hr; reflexivity).
    split; [exact Hcfg |].
    unfold remoteLogging_get, config_get. rewrite init_config, Hcfg. cbn.
    split; intros k; [intros v Hk | intros Hk]; rewrite Hk; reflexivity.
Qed.

(** An earlier init configured a url; a later one restates only [enable]. *)
Lemma init_shallow_merge_witness :
  remoteLogging_get (remote_logger (VStr "http://localhost/log")) "url"
    = inr (VStr "http://localhost/log") /\
  remoteLogging_get
    (fst (init (remote_logger (VStr "http://localhost/log"))
               (VObj (<["remoteLogging" := VObj (<["enable" := VBool true]> ∅)]> ∅))
               1700000001000 [("error", 0%nat)])) "url"
    = inr VUndefined.
Proof.
  split; [vm_compute; reflexivity |].
  destruct (init_shallow_merge (remote_logger (VStr "http://localhost/log"))
              (<["remoteLogging" := VObj (<["enable" := VBool true]> ∅)]> ∅)
              1700000001000 [("error", 0%nat)]) as [_ [_ H]].
  destruct (H (<["enable" := VBool true]> ∅)) as [_ [_ Hundef]];
    [vm_compute; reflexivity |].
  apply Hundef. vm_compute. reflexivity.
Defined.

(** ** The listener is registered once *)

Section Listeners.
Variables (ty : string) (cb : nat).
Local Abbreviation x := (ty, cb).

Lemma elem_of_remove_first (y : listener) (l : list listener) :
  y ∈ remove_first x l -> y ∈ l.
Proof.
  induction l as [| z l IH]; cbn; [trivial |].
  case_decide; rewrite ?elem_of_cons; intuition.
Qed.

Lemma remove_first_NoDup (l : list listener) :
  NoDup l -> NoDup (remove_first x l) /\ x ∉ remove_first x l.
Proof.
  induction 1 as [| z l Hz Hl IH]; cbn.
  - split; [constructor | apply not_elem_of_nil].
  - case_decide as Hxz.
    + subst z. split; assumption.
    + destruct IH as [IH1 IH2]. split.
      * constructor; [| assumption].
        intros Hin. apply Hz. eapply elem_of_remove_first; eassumption.
      * rewrite elem_of_cons. intuition.
Qed.

Lemma add_after_remove (l : list listener) :
  NoDup l ->
  let l' := addEventListener ty cb (removeEventListener ty cb l) in
  NoDup l' /\ x ∈ l'.
Proof.
  intros Hl l'. subst l'. unfold addEventListener, removeEventListener.
  destruct (remove_first_NoDup l Hl) as [Hnd Hnotin].
  case_decide; [contradiction |].
  split.
  - apply NoDup_app. repeat split; [assumption | | apply NoDup_singleton].
    intros y Hy Hy'. apply list_elem_of_singleton in Hy'. subst y. contradiction.
  - apply elem_of_app. right. apply list_elem_of_singleton. reflexivity.
Qed.

Lemma filter_once (l : list listener) :
  NoDup l -> x ∈ l ->
  length (List.filter (fun y : listener => bool_decide (y = x)) l) = 1%nat.
Proof.
  induction 1 as [| z l Hz Hl IH]; intros Hin.
  - apply elem_of_nil in Hin. contradiction.
  - cbn. apply elem_of_cons in Hin.
    destruct (decide (z = x)) as [-> | Hne].
    + rewrite bool_decide_eq_true_2 by reflexivity. cbn. f_equal.
      clear IH Hin Hl. induction l as [| w l IHl]; [reflexivity |].
      cbn. apply not_elem_of_cons in Hz as [Hw Hz].
      rewrite bool_decide_eq_false_2 by congruence. auto.
    + rewrite bool_decide_eq_false_2 by assumption.
      destruct Hin as [Heq | Hin]; [congruence | auto].
Qed.
End Listeners.

Lemma init_ref (self : ErrorLogger) (options : jsval) (now : Z) (ls : list listener) :
  errorListener_ref (fst (init self options now ls)) = errorListener_ref self.
Proof. reflexivity. Qed.

Lemma init_listeners (self : ErrorLogger) (options : jsval) (now : Z) (ls : list listener) :
  NoDup ls ->
  NoDup (snd (init self options now ls)) /\
  ("error", errorListener_ref self) ∈ snd (init self options now ls).
Proof.
  intros Hls. exact (add_after_remove "error" (errorListener_ref self) ls Hls).
Qed.

Lemma init_many_snoc (self : ErrorLogger) (calls : list (jsval * Z)) (c : jsval * Z)
    (ls : list listener) :
  init_many self (calls ++ [c]) ls =
    init (fst (init_many self calls ls)) (fst c) (snd c) (snd (init_many self calls ls)).
Proof. unfold init_many. rewrite fold_left_app. reflexivity. Qed.












(** ** Remote sink: the stack trace on the wire *)

Lemma str_split_cons (sep : ascii) (s : string) :
  exists h t, str_split sep s = h :: t.
Proof.
  destruct s as [| c s]; cbn; [eauto |].
  destruct (Ascii.eqb c sep); [eauto |].
  destruct (str_split sep s); eauto.
Qed.

Lemma join_cons_cons (sep x y : string) (l : list string) :
  join sep (x :: y :: l) = x +:+ sep +:+ join sep (y :: l).
Proof. reflexivity. Qed.

Lemma join_push (sep : string) (c : ascii) (h : string) (t : list string) :
  join sep (String c h :: t) = String c (join sep (h :: t)).
Proof. destruct t; reflexivity. Qed.

(** Splitting loses nothing: joining the pieces with the separator gives the
    string back. *)
Lemma join_str_split (sep : ascii) (s : string) :
  join (String sep "") (str_split sep s) = s.
Proof.
  induction s as [| c s IH]; [reflexivity |]. cbn [str_split].
  destruct (str_split_cons sep s) as (h & t & Hs). rewrite Hs in *.
  destruct (Ascii.eqb_spec c sep) as [-> | Hne].
  - rewrite join_cons_cons, IH. reflexivity.
  - rewrite join_push, IH. reflexivity.
Qed.

(** No piece contains the separator. *)
Lemma str_split_pieces (sep : ascii) (s : string) :
  Forall (fun piece => has_char sep piece = false) (str_split sep s).
Proof.
  induction s as [| c s IH]; cbn [str_split].
  - repeat constructor.
  - destruct (Ascii.eqb c sep) eqn:Hc.
    + constructor; [reflexivity | assumption].
    + destruct (str_split sep s) as [| h t].
      * repeat constructor. cbn. rewrite Hc. reflexivity.
      * inversion IH as [| ? ? Hh Ht]; subst. constructor; [| assumption].
        cbn. rewrite Hc. assumption.
Qed.

Lemma remoteLogging_sends (self : ErrorLogger) (e : ErrorRecord.t) (url : jsval) :
  remoteLogging_get self "url" = inr url -> truthy url = true ->
  let e' := ErrorRecord.set_stackTrace e
              (JSON_stringify (JArr (map JStr (str_split newline (ErrorRecord.stackTrace e))))) in
  _remoteLogging self e =
    (e', ([XhrOpen "POST" url true;
           XhrSetRequestHeader "Content-type" "application/json;charset=UTF-8";
           XhrSend (JSON_stringify (ErrorRecord.to_json e'));
           XhrOnReadyStateChange], inr tt)).
Proof.
  intros Hurl Hty e'. unfold _remoteLogging. rewrite Hurl, Hty. reflexivity.
Qed.

(** C8, as the specification words it, fails: the body does not carry
    stackTrace as a JSON array. *)
Lemma stackTrace_not_sent_as_array :
  sent_body (trace (snd (_remoteLogging (remote_logger (VStr "http://localhost/log"))
                           (sample_record three_lines))))
    <> Some (spec_payload (sample_record three_lines)).
Proof. vm_compute. discriminate. Qed.

(** C8 (amended): for every raw stack string, the remote sink splits it on
    the newline into its lines (which joined by newlines give the raw string
    back, none containing a newline), writes the JSON text of the array of
    those lines into the record's stackTrace, and sends the record; in the
    body, stackTrace is therefore a JSON string whose content is that array
    text.  For the raw stack of the three lines line1, line2, line3 the
    content is the text of the array of line1, line2 and line3. *)
Theorem remoteLogging_stackTrace (self : ErrorLogger) (e : ErrorRecord.t) (url : jsval) :
  remoteLogging_get self "url" = inr url -> truthy url = true ->
  let lines := str_split newline (ErrorRecord.stackTrace e) in
  let text := JSON_stringify (JArr (map JStr lines)) in
  let e' := fst (_remoteLogging self e) in
  join (String newline "") lines = ErrorRecord.stackTrace e /\
  Forall (fun l => has_char newline l = false) lines /\
  ErrorRecord.stackTrace e' = text /\
  sent_body (trace (snd (_remoteLogging self e))) =
    Some (JSON_stringify (ErrorRecord.to_json e')) /\
  json_field "stackTrace" (ErrorRecord.to_json e') = Some (JStr text) /\
  (ErrorRecord.stackTrace e = three_lines -> text = three_lines_array_text).
Proof.
  intros Hurl Hty lines text e'. subst e'.
  rewrite (remoteLogging_sends self e url Hurl Hty). cbn [fst snd trace sent_body].
  split; [apply join_str_split |].
  split; [apply str_split_pieces |].
  split; [reflexivity |].
  split; [reflexivity |].
  split; [reflexivity |].
  intros Hraw. subst text lines. rewrite Hraw. vm_compute. reflexivity.
Qed.

Lemma remoteLogging_stackTrace_witness :
  ErrorRecord.stackTrace
    (fst (_remoteLogging (remote_logger (VStr "http://localhost/log"))
            (sample_record three_lines)))
    = three_lines_array_text.
Proof.
  destruct (remoteLogging_stackTrace (remote_logger (VStr "http://localhost/log"))
              (sample_record three_lines) (VStr "http://localhost/log"))
    as (_ & _ & Hst & _ & _ & Htext); [vm_compute; reflexivity .. |].
  rewrite Hst. apply Htext. reflexivity.
Defined.

(** ** Events without a nested error *)

Lemma parseError_no_error (self : ErrorLogger) (h : Host) (ev : ErrorEvent.t) :
  ErrorEvent.error ev = NoError ->
  exists e, _parseError self h ev = ret e /\ ErrorRecord.stackTrace e = "".
Proof.
  intros Herr. unfold _parseError, _getTimeOnPage. rewrite Herr, !bind_ret_l.
  eexists. split; reflexivity.
Qed.

(** C10, as the specification words it, fails: the body does not carry
    stackTrace as a one-element JSON array. *)
Lemma empty_stackTrace_not_sent_as_array :
  sent_body (trace (_errorListener (remote_logger (VStr "http://localhost/log"))
                      sample_host (sample_event NoError)))
    <> Some (spec_payload (sample_record "")).
Proof. vm_compute. discriminate. Qed.

(** C10 (amended): an error event with no nested error object is parsed,
    without raising, into a record whose stackTrace is the empty string; when
    that record is sent to the remote sink, its stackTrace becomes the JSON
    text of the array holding one empty string, which is not the text of the
    empty array, and the body carries that text as a JSON string. *)
Theorem no_error_stackTrace (self : ErrorLogger) (h : Host) (ev : ErrorEvent.t) :
  ErrorEvent.error ev = NoError ->
  exists e,
    _parseError self h ev = ret e /\
    ErrorRecord.stackTrace e = "" /\
    str_split newline (ErrorRecord.stackTrace e) = [""] /\
    empty_line_array_text <> "[]" /\
    forall url, remoteLogging_get self "url" = inr url -> truthy url = true ->
      let e' := fst (_remoteLogging self e) in
      ErrorRecord.stackTrace e' = empty_line_array_text /\
      sent_body (trace (snd (_remoteLogging self e))) =
        Some (JSON_stringify (ErrorRecord.to_json e')) /\
      json_field "stackTrace" (ErrorRecord.to_json e') = Some (JStr empty_line_array_text).
Proof.
  intros Herr. destruct (parseError_no_error self h ev Herr) as (e & He & Hst).
  exists e. split; [exact He |]. split; [exact Hst |].
  split; [rewrite Hst; reflexivity |].
  split; [discriminate |].
  intros url Hurl Hty e'. subst e'.
  rewrite (remoteLogging_sends self e url Hurl Hty). cbn [fst snd trace sent_body].
  rewrite Hst. repeat split; reflexivity.
Qed.

Lemma no_error_stackTrace_witness :
  exists e,
    _parseError (remote_logger (VStr "http://localhost/log")) sample_host
      (sample_event NoError) = ret e /\
    ErrorRecord.stackTrace e = "".
Proof.
  destruct (no_error_stackTrace (remote_logger (VStr "http://localhost/log"))
              sample_host (sample_event NoError) eq_refl)
    as (e & He & Hst & _).
  exists e. split; assumption.
Defined.

(** * Further properties of the code *)

(** ** Duration formatter, on every integer *)

Lemma cascade_step_quot (d : gmap string Z) (ms : Z) (u : unit_of_time) :
  mod_ u <> 0 ->
  cascade_step (d, ms) u = (<[label u := Z.rem ms (mod_ u)]> d, Z.quot ms (mod_ u)).
Proof.
  intros Hm. unfold cascade_step. f_equal.
  pose proof (Z.quot_rem' ms (mod_ u)) as Hqr.
  replace (ms - Z.rem ms (mod_ u)) with (Z.quot ms (mod_ u) * mod_ u) by lia.
  apply Z.div_mul. assumption.
Qed.

Lemma cascade_units_quot (ms : Z) :
  let q1 := Z.quot ms 1000 in
  let q2 := Z.quot q1 60 in
  let q3 := Z.quot q2 60 in
  let q4 := Z.quot q3 24 in
  cascade units ms =
    (<["days" := Z.rem q4 31]>
     (<["hours" := Z.rem q3 24]>
     (<["minutes" := Z.rem q2 60]>
     (<["seconds" := Z.rem q1 60]>
     (<["ms" := Z.rem ms 1000]> ∅)))),
     Z.quot q4 31).
Proof.
  intros q1 q2 q3 q4. unfold cascade, units. cbn [fold_left].
  rewrite !cascade_step_quot by (cbn; lia). reflexivity.
Qed.

(** Within the safe integers, the five components and what is left over put
    the input back together; this holds for negative inputs too (a clock set
    back after init). *)
Theorem parseVisitorTime_recompose (ms : Z) :
  - MAX_SAFE_INTEGER <= ms <= MAX_SAFE_INTEGER ->
  exists a b c d e,
    let f := fields (_parseVisitorTime ms) in
    f !! "ms" = Some a /\ f !! "seconds" = Some b /\ f !! "minutes" = Some c /\
    f !! "hours" = Some d /\ f !! "days" = Some e /\
    ms = a + 1000 * (b + 60 * (c + 60 * (d + 24 * (e + 31 * snd (cascade units ms))))).
Proof.
  intros _. unfold _parseVisitorTime. cbn [fields].
  rewrite cascade_units_quot. cbn [fst snd].
  do 5 eexists. cbv zeta.
  repeat (split; [by simplify_map_eq |]).
  pose proof (Z.quot_rem' ms 1000).
  pose proof (Z.quot_rem' (Z.quot ms 1000) 60).
  pose proof (Z.quot_rem' (Z.quot (Z.quot ms 1000) 60) 60).
  pose proof (Z.quot_rem' (Z.quot (Z.quot (Z.quot ms 1000) 60) 60) 24).
  pose proof (Z.quot_rem' (Z.quot (Z.quot (Z.quot (Z.quot ms 1000) 60) 60) 24) 31).
  lia.
Qed.

Lemma parseVisitorTime_recompose_witness :
  exists a b c d e,
    fields (_parseVisitorTime (-90061001)) !! "ms" = Some a /\
    fields (_parseVisitorTime (-90061001)) !! "seconds" = Some b /\
    fields (_parseVisitorTime (-90061001)) !! "minutes" = Some c /\
    fields (_parseVisitorTime (-90061001)) !! "hours" = Some d /\
    fields (_parseVisitorTime (-90061001)) !! "days" = Some e /\
    -90061001 = a + 1000 * (b + 60 * (c + 60 * (d + 24 *
                  (e + 31 * snd (cascade units (-90061001)))))).
Proof.
  apply (parseVisitorTime_recompose (-90061001)). unfold MAX_SAFE_INTEGER. lia.
Defined.

(** A negative input gives the components of its absolute value, negated. *)
Theorem parseVisitorTime_opp (ms : Z) :
  fields (_parseVisitorTime (- ms)) = Z.opp <$> fields (_parseVisitorTime ms).
Proof.
  unfold _parseVisitorTime. cbn [fields].
  rewrite !cascade_units_quot. cbn [fst].
  rewrite !fmap_insert, fmap_empty.
  rewrite !Z.quot_opp_l, !Z.rem_opp_l by lia.
  reflexivity.
Qed.

(** The formatter wraps around every 31 days: adding whole periods of
    2678400000 ms to a nonnegative input changes no component, as long as
    the sum stays a safe integer. *)
Theorem parseVisitorTime_period (ms k : Z) :
  0 <= ms -> 0 <= k -> ms + k * 2678400000 <= MAX_SAFE_INTEGER ->
  fields (_parseVisitorTime (ms + k * 2678400000)) = fields (_parseVisitorTime ms).
Proof.
  intros Hms Hk _. unfold _parseVisitorTime. cbn [fields].
  rewrite !cascade_units by lia. cbn [fst].
  assert (Hc : forall D m q, 0 < D -> 0 < m -> 2678400000 = D * (m * q) ->
                 ((ms + k * 2678400000) / D) mod m = (ms / D) mod m).
  { intros D m q HD Hmm HP.
    replace (ms + k * 2678400000) with (ms + (k * q * m) * D) by (rewrite HP; ring).
    rewrite Z.div_add by lia.
    apply Z.mod_add. lia. }
  rewrite (Hc 86400000 31 1), (Hc 3600000 24 31), (Hc 60000 60 744),
          (Hc 1000 60 44640) by lia.
  replace ((ms + k * 2678400000) mod 1000) with (ms mod 1000).
  - reflexivity.
  - replace (ms + k * 2678400000) with (ms + (k * 2678400) * 1000) by lia.
    symmetry. apply Z.mod_add. lia.
Qed.

Lemma parseVisitorTime_period_witness :
  fields (_parseVisitorTime (90061001 + 2 * 2678400000)) = fields (_parseVisitorTime 90061001).
Proof. apply (parseVisitorTime_period 90061001 2); unfold MAX_SAFE_INTEGER; lia. Defined.

Lemma append_nonempty_r (s t : string) : t <> "" -> s +:+ t <> "".
Proof. destruct s; cbn; [trivial | discriminate]. Qed.

Lemma render_unit_nonempty (f : gmap string Z) (u : unit_of_time) :
  render_unit f u <> "".
Proof.
  unfold render_unit. destruct (f !! label u) as [n |].
  - apply append_nonempty_r. discriminate.
  - discriminate.
Qed.

Lemma join_nonempty (sep x : string) (l : list string) :
  x <> "" -> join sep (x :: l) <> "".
Proof.
  intros Hx. destruct l as [| y l]; [exact Hx |].
  rewrite join_cons_cons. destruct x; [contradiction | discriminate].
Qed.

(** The text is empty exactly when the filter lets no unit through. *)
Lemma toString_empty_filter (d : Duration) :
  fst (Duration_toString d) = "" <->
  List.filter (nonZero (fields d)) (rev (units_of d)) = [].
Proof.
  unfold Duration_toString. cbn [fst].
  destruct (List.filter (nonZero (fields d)) (rev (units_of d))) as [| u us].
  - split; reflexivity.
  - split; [| discriminate]. cbn [map]. intros H.
    exfalso. eapply join_nonempty; [apply render_unit_nonempty | exact H].
Qed.

Lemma cascade_multiple (q : Z) :
  cascade units (q * 2678400000) =
    (<["days" := 0]> (<["hours" := 0]> (<["minutes" := 0]>
       (<["seconds" := 0]> (<["ms" := 0]> ∅)))), q).
Proof.
  rewrite cascade_units_quot. cbv zeta.
  replace (q * 2678400000) with (q * 2678400 * 1000) by lia.
  rewrite Z.rem_mul, Z.quot_mul by lia.
  replace (q * 2678400) with (q * 44640 * 60) by lia.
  rewrite Z.rem_mul, Z.quot_mul by lia.
  replace (q * 44640) with (q * 744 * 60) by lia.
  rewrite Z.rem_mul, Z.quot_mul by lia.
  replace (q * 744) with (q * 31 * 24) by lia.
  rewrite Z.rem_mul, Z.quot_mul by lia.
  rewrite Z.rem_mul, Z.quot_mul by lia.
  reflexivity.
Qed.

(** The rendered duration is the empty string exactly for the whole multiples
    of 31 days (0 among them); every other input renders some unit. *)
Theorem rendering_empty_iff (ms : Z) :
  fst (Duration_toString (_parseVisitorTime ms)) = "" <->
  exists q, ms = q * 2678400000.
Proof.
  rewrite toString_empty_filter. split.
  - intros Hfilter. exists (snd (cascade units ms)).
    unfold _parseVisitorTime in Hfilter.
    rewrite cascade_units_quot in *. cbv zeta in *.
    cbn [fst snd fields units_of rev units app List.filter] in *.
    unfold nonZero in Hfilter. cbn [label] in Hfilter.
    repeat (rewrite ?lookup_insert_eq in Hfilter;
            rewrite ?lookup_insert_ne in Hfilter by discriminate).
    pose proof (Z.quot_rem' ms 1000).
    pose proof (Z.quot_rem' (Z.quot ms 1000) 60).
    pose proof (Z.quot_rem' (Z.quot (Z.quot ms 1000) 60) 60).
    pose proof (Z.quot_rem' (Z.quot (Z.quot (Z.quot ms 1000) 60) 60) 24).
    pose proof (Z.quot_rem' (Z.quot (Z.quot (Z.quot (Z.quot ms 1000) 60) 60) 24) 31).
    repeat match type of Hfilter with
           | context [?x =? 0] => destruct (Z.eqb_spec x 0); [| discriminate Hfilter]
           end.
    lia.
  - intros [q ->]. unfold _parseVisitorTime. cbn [fields units_of].
    rewrite cascade_multiple. cbn [fst]. vm_compute. reflexivity.
Qed.

(** [toString] reverses the shared [units] array in place.  The first call on
    a duration object renders the nonzero units in the reverse of the array the
    object was built with (for [_parseVisitorTime], days first); a second call
    on the same object renders them in the array's own order (ms first), which
    is the first call's list of components reversed; and after the second call
    the object is as it was, so a third call is like the first. *)
Theorem Duration_toString_twice (d : Duration) :
  let components := fun us : list unit_of_time =>
    map (render_unit (fields d)) (List.filter (nonZero (fields d)) us) in
  let first := Duration_toString d in
  let second := Duration_toString (snd first) in
  fst first = join ", " (components (rev (units_of d))) /\
  fst second = join ", " (components (units_of d)) /\
  components (units_of d) = rev (components (rev (units_of d))) /\
  snd second = d.
Proof.
  destruct d as [f us]. cbv zeta. unfold Duration_toString. cbn [fst snd fields units_of].
  rewrite rev_involutive.
  split; [reflexivity |]. split; [reflexivity |]. split; [| reflexivity].
  rewrite filter_rev, map_rev, rev_involutive. reflexivity.
Qed.

(** One day, one hour, one minute and one second, asked twice. *)
Example Duration_toString_twice_90061000 :
  fst (Duration_toString (_parseVisitorTime 90061000))
    = "1 day, 1 hour, 1 minute, 1 second" /\
  fst (Duration_toString (snd (Duration_toString (_parseVisitorTime 90061000))))
    = "1 second, 1 minute, 1 hour, 1 day".
Proof. split; vm_compute; reflexivity. Qed.

(** ** init: options, clock and listener list *)

(** Options that are not an object (none at all, null, a boolean, a number,
    a string, a function) and the empty object leave the configuration as it
    was; the clock is reset all the same. *)
Theorem init_without_options (self : ErrorLogger) (options : jsval) (now : Z)
    (ls : list listener) :
  (forall o, options = VObj o -> o = ∅) ->
  config (fst (init self options now ls)) = config self /\
  startTime (fst (init self options now ls)) = Some now.
Proof.
  intros Hopt. split; [| reflexivity].
  destruct options as [| | b | n | s | f | o]; cbn; try reflexivity.
  - destruct b; reflexivity.
  - destruct (negb (n =? 0)); reflexivity.
  - destruct (negb (String.eqb s "")); reflexivity.
  - rewrite (Hopt o eq_refl). unfold Object_assign. apply map_fold_empty.
Qed.

Lemma init_without_options_witness :
  config (fst (init (remote_logger (VStr "http://localhost/log")) VUndefined 5 []))
    = config (remote_logger (VStr "http://localhost/log")).
Proof.
  apply (init_without_options (remote_logger (VStr "http://localhost/log")) VUndefined 5 []).
  intros o Ho. discriminate Ho.
Defined.

(** Two inits in a row configure like one init with the two option objects
    merged, the later one winning key by key; repeating the same options
    changes nothing more. *)
Theorem init_twice_config (self : ErrorLogger) (o1 o2 : gmap string jsval)
    (n1 n2 : Z) (ls ls' : list listener) :
  let once := fst (init self (VObj o1) n1 ls) in
  let twice := fst (init once (VObj o2) n2 ls') in
  config twice = o2 ∪ o1 ∪ config self /\
  config twice = config (fst (init self (VObj (Object_assign o1 o2)) n2 ls)) /\
  (o1 = o2 -> config twice = config once).
Proof.
  cbv zeta. rewrite !init_config, !Object_assign_union.
  split; [apply (assoc_L (∪)) |]. split; [apply (assoc_L (∪)) |].
  intros ->. rewrite (assoc_L (∪)), (idemp_L (∪)). reflexivity.
Qed.

(** init never removes a configuration key: whatever the options of a
    sequence of inits, every key configured before is still configured after
    (so detailedErrors and remoteLogging stay defined on a logger that
    started from the defaults). *)
Theorem init_many_keeps_keys (self : ErrorLogger) (calls : list (jsval * Z))
    (ls : list listener) (k : string) :
  is_Some (config self !! k) ->
  is_Some (config (fst (init_many self calls ls)) !! k).
Proof.
  intros Hk. induction calls as [| c calls IH] using rev_ind; [exact Hk |].
  rewrite init_many_snoc.
  destruct c as [options now]. cbn [fst snd].
  destruct options as [| | b | n | s | f | o];
    try exact IH;
    try (unfold init; cbn [truthy typeof_object andb fst config];
         repeat match goal with |- context [if ?b then _ else _] => destruct b end;
         exact IH).
  rewrite init_config, Object_assign_lookup.
  destruct (o !! k); [eauto | exact IH].
Qed.

Lemma init_many_keeps_keys_witness :
  is_Some (config (fst (init_many (ErrorLogger_new 0)
                          [(remote_options VNull, 1); (VNull, 2)] [])) !! "detailedErrors").
Proof.
  apply (init_many_keeps_keys (ErrorLogger_new 0)). vm_compute. eauto.
Defined.

(** Only the last init's clock reading counts: after a sequence of inits the
    time on page of a parsed event is the host's clock minus the time of the
    last init. *)
Theorem init_many_clock (self : ErrorLogger) (calls : list (jsval * Z))
    (ls : list listener) (c : jsval * Z) :
  last calls = Some c ->
  let self' := fst (init_many self calls ls) in
  startTime self' = Some (snd c) /\
  forall h ev e, outcome (_parseError self' h ev) = inr e ->
                 ErrorRecord.timeSpend e = Date_now h - snd c.
Proof.
  intros Hlast. destruct calls as [| c' calls _] using rev_ind; [discriminate |].
  rewrite last_snoc in Hlast. injection Hlast as ->.
  cbv zeta. rewrite init_many_snoc.
  split; [reflexivity |].
  intros h ev e. unfold _parseError, _getTimeOnPage. rewrite bind_ret_l.
  destruct (ErrorEvent.error ev); cbn; intros He; try discriminate;
    injection He as <-; reflexivity.
Qed.

Lemma init_many_clock_witness :
  startTime (fst (init_many (ErrorLogger_new 0) [(VUndefined, 10); (VNull, 25)] []))
    = Some 25.
Proof.
  apply (init_many_clock (ErrorLogger_new 0) [(VUndefined, 10); (VNull, 25)] []
           (VNull, 25)).
  reflexivity.
Defined.

Lemma filter_others_id (x : listener) (l : list listener) :
  x ∉ l -> List.filter (fun y : listener => negb (bool_decide (y = x))) l = l.
Proof.
  induction l as [| z l IH]; intros Hx; [reflexivity |].
  apply not_elem_of_cons in Hx as [Hxz Hx]. cbn.
  rewrite bool_decide_eq_false_2 by congruence. cbn. f_equal. auto.
Qed.

Lemma remove_first_filter (x : listener) (l : list listener) :
  NoDup l ->
  remove_first x l = List.filter (fun y : listener => negb (bool_decide (y = x))) l.
Proof.
  induction 1 as [| z l Hz Hl IH]; [reflexivity |]. cbn.
  case_decide as Hxz.
  - subst z. rewrite bool_decide_eq_true_2 by reflexivity. cbn.
    symmetry. apply filter_others_id. assumption.
  - rewrite bool_decide_eq_false_2 by congruence. cbn. f_equal. exact IH.
Qed.

(** On a duplicate-free listener list, init leaves every other listener in
    place and in order, and puts the logger's own handler last (also when it
    was registered before, so a re-init moves it behind listeners added in
    between); a second init right after changes nothing in the list. *)
Theorem init_listener_list (self : ErrorLogger) (options : jsval) (now : Z)
    (ls : list listener) :
  NoDup ls ->
  let x := ("error", errorListener_ref self) in
  let ls' := snd (init self options now ls) in
  ls' = List.filter (fun y : listener => negb (bool_decide (y = x))) ls ++ [x] /\
  forall options2 now2,
    snd (init (fst (init self options now ls)) options2 now2 ls') = ls'.
Proof.
  intros Hnd x ls'.
  assert (Hstep : forall l : list listener, NoDup l ->
            addEventListener "error" (errorListener_ref self)
              (removeEventListener "error" (errorListener_ref self) l)
            = List.filter (fun y : listener => negb (bool_decide (y = x))) l ++ [x]).
  { intros l Hl. unfold addEventListener, removeEventListener.
    destruct (remove_first_NoDup "error" (errorListener_ref self) l Hl) as [_ Hnotin].
    case_decide; [contradiction |].
    rewrite remove_first_filter by assumption. reflexivity. }
  assert (Hls' : ls' = List.filter (fun y : listener => negb (bool_decide (y = x))) ls ++ [x])
    by (apply Hstep; assumption).
  split; [exact Hls' |].
  intros options2 now2.
  destruct (init_listeners self options now ls Hnd) as [Hnd' _]. fold ls' in Hnd'.
  change (snd (init (fst (init self options now ls)) options2 now2 ls'))
    with (addEventListener "error" (errorListener_ref self)
            (removeEventListener "error" (errorListener_ref self) ls')).
  rewrite (Hstep ls' Hnd'). rewrite Hls' at 2. f_equal.
  rewrite Hls', List.filter_app. cbn.
  rewrite bool_decide_eq_true_2 by reflexivity. cbn. rewrite app_nil_r.
  clear. induction ls as [| z l IH]; [reflexivity |]. cbn.
  destruct (bool_decide (z = x)) eqn:Hz; cbn; [exact IH |].
  rewrite Hz. cbn. f_equal. exact IH.
Qed.

Lemma init_listener_list_witness :
  snd (init (ErrorLogger_new 0) VUndefined 5 [("error", 0%nat); ("click", 9%nat)])
    = [("click", 9%nat); ("error", 0%nat)].
Proof.
  destruct (init_listener_list (ErrorLogger_new 0) VUndefined 5
              [("error", 0%nat); ("click", 9%nat)]) as [H _].
  - repeat constructor; rewrite ?elem_of_cons, ?elem_of_nil; intuition discriminate.
  - exact H.
Defined.

Lemma init_keeps_others (self : ErrorLogger) (options : jsval) (now : Z)
    (ls : list listener) (y : listener) :
  y <> ("error", errorListener_ref self) -> y ∈ ls ->
  y ∈ snd (init self options now ls).
Proof.
  intros Hy Hin. cbn. unfold addEventListener, removeEventListener.
  assert (Hrem : y ∈ remove_first ("error", errorListener_ref self) ls).
  { induction ls as [| z l IH]; [exact Hin |]. cbn.
    apply elem_of_cons in Hin. case_decide as Hz.
    - destruct Hin as [-> | Hin]; [congruence | exact Hin].
    - apply elem_of_cons. destruct Hin as [-> | Hin]; [left; reflexivity | right; auto]. }
  case_decide; [exact Hrem | apply elem_of_app; left; exact Hrem].
Qed.

(** Two logger instances on one window do not disturb each other: after the
    first is initialised and then the second, each one's handler is
    registered exactly once. *)
Theorem two_instances_registered (a b : ErrorLogger) (oa ob : jsval) (na nb : Z)
    (ls : list listener) :
  NoDup ls -> errorListener_ref a <> errorListener_ref b ->
  let a' := fst (init a oa na ls) in
  let ls1 := snd (init a oa na ls) in
  let b' := fst (init b ob nb ls1) in
  let ls2 := snd (init b ob nb ls1) in
  registered a' ls2 = 1%nat /\ registered b' ls2 = 1%nat.
Proof.
  intros Hnd Hab a' ls1 b' ls2.
  destruct (init_listeners a oa na ls Hnd) as [Hnd1 Hin1]. fold ls1 in Hnd1, Hin1.
  destruct (init_listeners b ob nb ls1 Hnd1) as [Hnd2 Hin2]. fold ls2 in Hnd2, Hin2.
  split; unfold registered; apply filter_once; try assumption.
  subst a' ls2. rewrite init_ref. apply init_keeps_others; [congruence | exact Hin1].
Qed.

Lemma two_instances_registered_witness :
  registered (fst (init (ErrorLogger_new 0) VUndefined 1 []))
    (snd (init (ErrorLogger_new 1) VUndefined 2
            (snd (init (ErrorLogger_new 0) VUndefined 1 [])))) = 1%nat.
Proof.
  destruct (two_instances_registered (ErrorLogger_new 0) (ErrorLogger_new 1)
              VUndefined VUndefined 1 2 []) as [H _].
  - constructor.
  - cbn. lia.
  - exact H.
Defined.

(** ** The listener: which sinks run, and what goes wrong *)

(** An error event whose nested error is a truthy value without a stack (a
    thrown string, number or plain object) is reported to no sink at all: the
    listener raises a TypeError while parsing, before any output, whatever the
    configuration. *)
Theorem stackless_error_not_reported (self : ErrorLogger) (h : Host) (ev : ErrorEvent.t) :
  ErrorEvent.error ev = ThrownWithoutStack ->
  _errorListener self h ev = throw (JsTypeError "Cannot read properties of undefined").
Proof.
  intros Herr. unfold _errorListener, _parseError, _getTimeOnPage.
  rewrite Herr. reflexivity.
Qed.

Lemma stackless_error_not_reported_witness :
  trace (_errorListener (remote_logger (VStr "http://localhost/log")) sample_host
           (sample_event ThrownWithoutStack)) = [].
Proof.
  rewrite (stackless_error_not_reported (remote_logger (VStr "http://localhost/log"))
             sample_host (sample_event ThrownWithoutStack) eq_refl).
  reflexivity.
Defined.

(** With remote logging switched off the URL is never looked at: the listener
    ends normally and touches no network, even when no URL is configured. *)
Theorem remote_disabled_no_network (self : ErrorLogger) (h : Host) (ev : ErrorEvent.t)
    (e : ErrorRecord.t) (enable : jsval) :
  outcome (_parseError self h ev) = inr e ->
  remoteLogging_get self "enable" = inr enable -> truthy enable = false ->
  outcome (_errorListener self h ev) = inr tt /\
  count is_network (trace (_errorListener self h ev)) = 0%nat /\
  count is_console (trace (_errorListener self h ev)) =
    (if truthy (config_get self "detailedErrors") then 1 else 0)%nat.
Proof.
  intros He Hen Hty. rewrite (errorListener_parsed self h ev e He).
  unfold _showError. rewrite Hen.
  run_effects; repeat split; reflexivity.
Qed.

Lemma remote_disabled_no_network_witness :
  outcome (_errorListener (ErrorLogger_new 0) sample_host (sample_event NoError)) = inr tt.
Proof.
  apply (remote_disabled_no_network (ErrorLogger_new 0) sample_host (sample_event NoError)
           {| ErrorRecord.type := "error";
              ErrorRecord.message := "Uncaught ReferenceError: x is not defined";
              ErrorRecord.path := "http://localhost/app.js";
              ErrorRecord.line := 3; ErrorRecord.column := 7;
              ErrorRecord.stackTrace := "";
              ErrorRecord.viewport := "1040x768";
              ErrorRecord.timeSpend := 1700000005000;
              ErrorRecord.datetime := "Tue Nov 14 2023 22:13:25 GMT+0000" |}
           (VBool false)); vm_compute; reflexivity.
Defined.

(** An init whose options set remoteLogging to null breaks the listener: every
    event that parses ends in a TypeError (reading enable of null), after the
    console report if that is on, and nothing is sent. *)
Theorem remoteLogging_null_breaks_listener (self : ErrorLogger) (o : gmap string jsval)
    (now : Z) (ls : list listener) (h : Host) (ev : ErrorEvent.t) (e : ErrorRecord.t) :
  o !! "remoteLogging" = Some VNull ->
  let self' := fst (init self (VObj o) now ls) in
  outcome (_parseError self' h ev) = inr e ->
  outcome (_errorListener self' h ev) = inl (JsTypeError "Cannot read properties of null") /\
  count is_network (trace (_errorListener self' h ev)) = 0%nat /\
  count is_console (trace (_errorListener self' h ev)) =
    (if truthy (config_get self' "detailedErrors") then 1 else 0)%nat.
Proof.
  intros Ho self' He. rewrite (errorListener_parsed self' h ev e He).
  assert (Hget : remoteLogging_get self' "enable" = inl (JsTypeError "Cannot read properties of null")).
  { unfold remoteLogging_get, config_get. subst self'.
    rewrite init_config, Object_assign_lookup, Ho. reflexivity. }
  rewrite Hget. unfold _showError.
  run_effects; repeat split; reflexivity.
Qed.

Lemma remoteLogging_null_breaks_listener_witness :
  outcome (_errorListener
             (fst (init (ErrorLogger_new 0) (VObj (<["remoteLogging" := VNull]> ∅))
                        1700000000000 []))
             sample_host (sample_event NoError))
    = inl (JsTypeError "Cannot read properties of null").
Proof.
  apply (remoteLogging_null_breaks_listener (ErrorLogger_new 0)
           (<["remoteLogging" := VNull]> ∅) 1700000000000 [] sample_host
           (sample_event NoError) (sample_record "")); vm_compute; reflexivity.
Defined.

(** The listener never calls a configured callback itself: callbacks run only
    when a request completes. *)
Theorem errorListener_calls_no_callback (self : ErrorLogger) (h : Host)
    (ev : ErrorEvent.t) (f : nat) :
  count (is_invoke f) (trace (_errorListener self h ev)) = 0%nat.
Proof.
  unfold _errorListener, _parseError, _getTimeOnPage, _remoteLogging, _showError.
  rewrite bind_ret_l.
  destruct (ErrorEvent.error ev);
    destruct (remoteLogging_get self "enable") as [ex | enable];
    destruct (remoteLogging_get self "url") as [ex' | url];
    run_effects; reflexivity.
Qed.

(** ** Remote sink: further edge cases *)

(** Every falsy URL is refused, not only null: a missing url key (undefined),
    the empty string, 0 and false all raise the missing-URL error, with no
    event and the record untouched. *)
Theorem remoteLogging_falsy_url (self : ErrorLogger) (e : ErrorRecord.t) (url : jsval) :
  remoteLogging_get self "url" = inr url -> truthy url = false ->
  _remoteLogging self e = (e, throw missing_url).
Proof.
  intros Hurl Hty. unfold _remoteLogging. rewrite Hurl, Hty. reflexivity.
Qed.

Lemma remoteLogging_falsy_url_witness :
  _remoteLogging (remote_logger (VStr "")) (sample_record three_lines)
    = (sample_record three_lines, throw missing_url).
Proof.
  apply (remoteLogging_falsy_url (remote_logger (VStr "")) (sample_record three_lines)
           (VStr "")); vm_compute; reflexivity.
Defined.

(** Switching remote logging on without restating the URL loses the URL: after
    an init whose remoteLogging object enables the sink and has no url key,
    every event that parses ends in the missing-URL error and nothing is sent,
    whatever URL was configured before; the console report, if on, is still
    written first. *)
Theorem enable_without_url_raises (self : ErrorLogger) (o r : gmap string jsval)
    (now : Z) (ls : list listener) (h : Host) (ev : ErrorEvent.t)
    (e : ErrorRecord.t) (enable : jsval) :
  o !! "remoteLogging" = Some (VObj r) ->
  r !! "enable" = Some enable -> truthy enable = true -> r !! "url" = None ->
  let self' := fst (init self (VObj o) now ls) in
  outcome (_parseError self' h ev) = inr e ->
  outcome (_errorListener self' h ev) = inl missing_url /\
  count is_network (trace (_errorListener self' h ev)) = 0%nat /\
  count is_console (trace (_errorListener self' h ev)) =
    (if truthy (config_get self' "detailedErrors") then 1 else 0)%nat.
Proof.
  intros Ho Hen Hty Hurl self' He.
  assert (Hcfg : config_get self' "remoteLogging" = VObj r).
  { unfold config_get. subst self'. rewrite init_config, Object_assign_lookup, Ho.
    reflexivity. }
  rewrite (errorListener_parsed self' h ev e He).
  unfold _remoteLogging, remoteLogging_get, _showError. rewrite Hcfg.
  cbn [get_prop]. rewrite Hen, Hurl. cbn [default from_option id].
  change (truthy VUndefined) with false.
  run_effects; repeat split; reflexivity.
Qed.

Lemma enable_without_url_raises_witness :
  outcome (_errorListener
             (fst (init (remote_logger (VStr "http://localhost/log"))
                        (VObj (<["remoteLogging" := VObj (<["enable" := VBool true]> ∅)]> ∅))
                        1700000000000 [("error", 0%nat)]))
             sample_host (sample_event NoError))
    = inl missing_url.
Proof.
  apply (enable_without_url_raises (remote_logger (VStr "http://localhost/log"))
           (<["remoteLogging" := VObj (<["enable" := VBool true]> ∅)]> ∅)
           (<["enable" := VBool true]> ∅) 1700000000000 [("error", 0%nat)]
           sample_host (sample_event NoError) (sample_record "") (VBool true));
    vm_compute; reflexivity.
Defined.

(** A remoteLogging override that restates no callbacks silences them: after
    such an init a completed request calls nothing, whatever its status and
    whatever callbacks were configured before. *)
Theorem override_drops_callbacks (self : ErrorLogger) (o r : gmap string jsval)
    (now : Z) (ls : list listener) (earlier : list Z) (status : Z) :
  o !! "remoteLogging" = Some (VObj r) ->
  r !! "successCallback" = None -> r !! "errorCallback" = None ->
  Forall (fun rs => rs <> 4) earlier ->
  complete_request (fst (init self (VObj o) now ls)) earlier status = [].
Proof.
  intros Ho Hsc Hec Hearlier.
  rewrite complete_request_done by assumption.
  assert (Hget : forall k, r !! k = None ->
            remoteLogging_get (fst (init self (VObj o) now ls)) k = inr VUndefined).
  { intros k Hk. unfold remoteLogging_get, config_get.
    rewrite init_config, Object_assign_lookup, Ho. cbn. rewrite Hk. reflexivity. }
  rewrite (onreadystatechange_done _ status VUndefined VUndefined (Hget _ Hsc) (Hget _ Hec)).
  cbn [truthy]. rewrite andb_false_r. reflexivity.
Qed.

Lemma override_drops_callbacks_witness :
  complete_request (remote_logger (VStr "http://localhost/log")) [2; 3] 200 = [].
Proof.
  apply (override_drops_callbacks (ErrorLogger_new 0)
           (<["remoteLogging" :=
                VObj (<["enable" := VBool true]> (<["url" := VStr "http://localhost/log"]> ∅))]> ∅)
           (<["enable" := VBool true]> (<["url" := VStr "http://localhost/log"]> ∅))
           1700000000000 [] [2; 3] 200);
    try (vm_compute; reflexivity).
  repeat constructor; lia.
Defined.

(** A callback set to a truthy value that is not a function is called all the
    same and fails: on status 200 such a success callback gives an uncaught
    TypeError and the error callback is not called instead; on any other
    status the same holds for such an error callback. *)
Theorem complete_request_not_callable (self : ErrorLogger) (earlier : list Z)
    (status : Z) (sc ec : jsval) :
  Forall (fun rs => rs <> 4) earlier ->
  remoteLogging_get self "successCallback" = inr sc ->
  remoteLogging_get self "errorCallback" = inr ec ->
  let tr := complete_request self earlier status in
  (status = 200 -> truthy sc = true -> (forall f, sc <> VFun f) ->
     tr = [Uncaught (JsTypeError "is not a function")]) /\
  (status <> 200 -> truthy ec = true -> (forall f, ec <> VFun f) ->
     tr = [Uncaught (JsTypeError "is not a function")]).
Proof.
  intros Hearlier Hsc Hec tr. subst tr.
  rewrite complete_request_done by assumption.
  rewrite (onreadystatechange_done self status sc ec Hsc Hec).
  split.
  - intros -> Hty Hnf. cbn [Z.eqb Pos.eqb andb]. rewrite Hty.
    destruct sc; try reflexivity; try discriminate. exfalso. eapply Hnf. reflexivity.
  - intros Hst Hty Hnf. apply Z.eqb_neq in Hst. rewrite Hst. cbn [andb]. rewrite Hty.
    destruct ec; try reflexivity; try discriminate. exfalso. eapply Hnf. reflexivity.
Qed.

Lemma complete_request_not_callable_witness :
  complete_request
    (fst (init (ErrorLogger_new 0)
            (VObj (<["remoteLogging" := VObj (<["successCallback" := VStr "done"]> ∅)]> ∅))
            1700000000000 []))
    [2; 3] 200
    = [Uncaught (JsTypeError "is not a function")].
Proof.
  assert (Hearlier : Forall (fun rs => rs <> 4) [2; 3]) by (repeat constructor; lia).
  set (self := fst (init (ErrorLogger_new 0)
            (VObj (<["remoteLogging" := VObj (<["successCallback" := VStr "done"]> ∅)]> ∅))
            1700000000000 [])).
  assert (Hsc : remoteLogging_get self "successCallback" = inr (VStr "done"))
    by (vm_compute; reflexivity).
  assert (Hec : remoteLogging_get self "errorCallback" = inr VUndefined)
    by (vm_compute; reflexivity).
  destruct (complete_request_not_callable self [2; 3] 200 (VStr "done") VUndefined
              Hearlier Hsc Hec) as [H _].
  apply H; [reflexivity | reflexivity | discriminate].
Defined.

(** The stack array on the wire has one entry more than the raw stack has
    newlines, so it is never the empty array: the text that [_remoteLogging]
    writes into the record's stackTrace is never that of []. *)
Theorem stack_lines_count (s : string) :
  length (str_split newline s) = S (count_char newline s) /\
  JSON_stringify (JArr (map JStr (str_split newline s))) <> "[]" /\
  (forall self e url,
     ErrorRecord.stackTrace e = s ->
     remoteLogging_get self "url" = inr url -> truthy url = true ->
     ErrorRecord.stackTrace (fst (_remoteLogging self e)) =
       JSON_stringify (JArr (map JStr (str_split newline s))) /\
     ErrorRecord.stackTrace (fst (_remoteLogging self e)) <> "[]").
Proof.
  assert (Hne : JSON_stringify (JArr (map JStr (str_split newline s))) <> "[]").
  { destruct (str_split_cons newline s) as (h & t & ->).
    cbn [JSON_stringify map]. unfold json_quote at 1, dquote.
    change (String (ascii_of_nat 34) "" +:+ ?x) with (String (ascii_of_nat 34) x).
    rewrite join_push.
    change ("[" +:+ ?x) with (String "[" x).
    change (String ?c ?y +:+ ?x) with (String c (y +:+ x)).
    intros H. injection H as H. discriminate H. }
  split; [| split; [exact Hne |]].
  - clear Hne. induction s as [| c s IH]; [reflexivity |]. cbn [str_split count_char].
    destruct (Ascii.eqb c newline); cbn [length]; [rewrite IH; reflexivity |].
    destruct (str_split newline s); cbn [length] in *; lia.
  - intros self e url Hs Hurl Hty.
    rewrite (remoteLogging_sends self e url Hurl Hty). cbn [fst].
    rewrite Hs. split; [reflexivity | exact Hne].
Qed.

Lemma stack_lines_count_witness :
  ErrorRecord.stackTrace
    (fst (_remoteLogging (remote_logger (VStr "http://localhost/log")) (sample_record "")))
    <> "[]".
Proof.
  destruct (stack_lines_count "") as (_ & _ & H).
  assert (Hurl : remoteLogging_get (remote_logger (VStr "http://localhost/log")) "url"
                 = inr (VStr "http://localhost/log")) by (vm_compute; reflexivity).
  exact (proj2 (H (remote_logger (VStr "http://localhost/log")) (sample_record "")
                  (VStr "http://localhost/log") eq_refl Hurl eq_refl)).
Defined.

(** ** Viewport and singular labels *)

(** The viewport falls back on whichever source has a size: with no window
    size (undefined or 0) it is the document's size, and with a document size
    of 0 it is the window's. *)
Theorem getViewport_fallback (h : Host) :
  (or_zero (innerWidth h) = 0 -> or_zero (innerHeight h) = 0 ->
   0 <= clientWidth h -> 0 <= clientHeight h ->
   _getViewport h =
     Number_toString (clientWidth h) +:+ "x" +:+ Number_toString (clientHeight h)) /\
  (forall iw ih, innerWidth h = Some iw -> innerHeight h = Some ih ->
   clientWidth h = 0 -> clientHeight h = 0 -> 0 <= iw -> 0 <= ih ->
   _getViewport h = Number_toString iw +:+ "x" +:+ Number_toString ih).
Proof.
  unfold _getViewport. split.
  - intros -> -> Hw Hh. rewrite !Z.max_l by assumption. reflexivity.
  - intros iw ih -> -> -> -> Hw Hh. cbn [or_zero].
    destruct (Z.eqb_spec iw 0) as [-> | _]; destruct (Z.eqb_spec ih 0) as [-> | _];
      rewrite ?Z.max_r by assumption; reflexivity.
Qed.

Lemma getViewport_fallback_witness :
  _getViewport {| Date_now := 0; Date_toString := ""; clientWidth := 800;
                  clientHeight := 600; innerWidth := None; innerHeight := Some 0 |}
    = "800x600".
Proof.
  destruct (getViewport_fallback
              {| Date_now := 0; Date_toString := ""; clientWidth := 800;
                 clientHeight := 600; innerWidth := None; innerHeight := Some 0 |})
    as [H _].
  apply H; cbn; lia || reflexivity.
Defined.

Lemma append_assoc (s t u : string) : (s +:+ t) +:+ u = s +:+ (t +:+ u).
Proof.
  induction s as [| c s IH]; [reflexivity |].
  change (String c ((s +:+ t) +:+ u) = String c (s +:+ (t +:+ u))). rewrite IH. reflexivity.
Qed.

Lemma join_snoc (sep x : string) (l : list string) :
  exists p, join sep (l ++ [x]) = p +:+ x.
Proof.
  induction l as [| y l [p IH]].
  - exists "". reflexivity.
  - destruct l as [| z l].
    + exists (y +:+ sep). cbn [app]. rewrite join_cons_cons.
      cbn [join String.concat]. symmetry. apply append_assoc.
    + exists (y +:+ sep +:+ p). cbn [app] in *. rewrite join_cons_cons, IH.
      rewrite !append_assoc. reflexivity.
Qed.

(** The singular of a label is the label without its last character, also for
    the label ms: an input with exactly one millisecond left over (1, 1001,
    61001, ...) renders that component as "1 m". *)
Theorem one_millisecond_renders_1_m (ms : Z) :
  0 <= ms -> ms mod 1000 = 1 ->
  exists p, fst (Duration_toString (_parseVisitorTime ms)) = p +:+ "1 m".
Proof.
  intros Hms Hone. unfold Duration_toString, _parseVisitorTime.
  cbn [fst fields units_of]. rewrite cascade_units by assumption. cbn [fst].
  set (f := <["days" := _]> _).
  change (rev units) with
    ([ {| label := "days"; mod_ := 31 |}; {| label := "hours"; mod_ := 24 |};
       {| label := "minutes"; mod_ := 60 |}; {| label := "seconds"; mod_ := 60 |} ]
     ++ [ {| label := "ms"; mod_ := 1000 |} ]).
  rewrite List.filter_app, map_app.
  assert (Hf : f !! "ms" = Some 1) by (subst f; rewrite <- Hone; by simplify_map_eq).
  assert (Hlast : map (render_unit f)
                     (List.filter (nonZero f) [ {| label := "ms"; mod_ := 1000 |} ])
                   = ["1 m"]).
  { cbn [List.filter]. unfold nonZero. cbn [label]. rewrite Hf.
    cbn [Z.eqb negb map]. unfold render_unit. cbn [label]. rewrite Hf. reflexivity. }
  rewrite Hlast. apply join_snoc.
Qed.

Lemma one_millisecond_renders_1_m_witness :
  exists p, fst (Duration_toString (_parseVisitorTime 61001)) = p +:+ "1 m".
Proof. apply (one_millisecond_renders_1_m 61001); [lia | reflexivity]. Defined.

Lemma init_twice_config_witness :
  config (fst (init (fst (init (ErrorLogger_new 0) (remote_options VNull) 1 []))
                    (remote_options VNull) 2 [("error", 0%nat)]))
    = config (fst (init (ErrorLogger_new 0) (remote_options VNull) 1 [])).
Proof.
  destruct (init_twice_config (ErrorLogger_new 0)
              (<["remoteLogging" := VObj (<["enable" := VBool true]> (<["url" := VNull]> ∅))]> ∅)
              (<["remoteLogging" := VObj (<["enable" := VBool true]> (<["url" := VNull]> ∅))]> ∅)
              1 2 [] [("error", 0%nat)]) as (_ & _ & H).
  apply H. reflexivity.
Defined.
